(** * server.py: a CRUD service for users and advertisements

    A shallow embedding of [server.py]: the JSON values a request carries,
    the pydantic validation models, the two tables behind the SQLAlchemy
    session, the error types, the eight handlers of [UserView] and
    [AdvView] and the route table, followed by the properties of the
    handlers. *)

From Stdlib Require Import ZArith Ascii String List Lia.
From stdpp Require Import base option list strings pretty gmap fin_maps.

Set Warnings "-register-all".

Local Open Scope string_scope.
Local Open Scope Z_scope.

(** ** JSON values

    What [await self.request.json()] yields and what [web.json_response]
    and [json.dumps] take.  A JSON object is the list of the items of the
    parsed [dict], keys unique, in insertion order.  Numbers with a
    fraction are outside the model. *)

Inductive json : Type :=
| JNull
| JBool (b : bool)
| JInt (n : Z)
| JStr (s : string)
| JArr (l : list json)
| JObj (items : list (string * json)).

(** [d.get(key)] on the items of a [dict]. *)
Fixpoint dict_get {A : Type} (key : string) (d : list (string * A)) : option A :=
  match d with
  | [] => None
  | (k, v) :: d' => if String.eqb k key then Some v else dict_get key d'
  end.

(** ** [int(s)] on a [str]

    Python's [int] strips surrounding whitespace, takes an optional sign
    and then decimal digits, where single underscores may separate digits.
    Strings are taken as ASCII. *)

Definition is_digit (c : ascii) : bool :=
  (48 <=? nat_of_ascii c)%nat && (nat_of_ascii c <=? 57)%nat.

Definition digit_value (c : ascii) : Z := Z.of_nat (nat_of_ascii c) - 48.

Definition is_space (c : ascii) : bool :=
  let n := nat_of_ascii c in
  (n =? 32)%nat || ((9 <=? n)%nat && (n <=? 13)%nat).

Fixpoint lstrip (cs : list ascii) : list ascii :=
  match cs with
  | c :: cs' => if is_space c then lstrip cs' else cs
  | [] => []
  end.

Definition strip (cs : list ascii) : list ascii :=
  rev (lstrip (rev (lstrip cs))).

(** [acc] is the value of the digits read so far, [after_digit] tells
    whether the previous character was a digit: an underscore is accepted
    only between two digits. *)
Fixpoint int_digits (acc : Z) (after_digit : bool) (cs : list ascii) : option Z :=
  match cs with
  | [] => if after_digit then Some acc else None
  | c :: cs' =>
      if is_digit c then int_digits (10 * acc + digit_value c) true cs'
      else if Ascii.eqb c "_"%char && after_digit then int_digits acc false cs'
      else None
  end.

Definition int (s : string) : option Z :=
  match strip (list_ascii_of_string s) with
  | [] => None
  | c :: cs =>
      if Ascii.eqb c "-" then Z.opp <$> int_digits 0 false cs
      else if Ascii.eqb c "+" then int_digits 0 false cs
      else int_digits 0 false (c :: cs)
  end.

(** ** Validation models (pydantic)

    The models are pydantic [BaseModel]s of the generation in which an
    [Optional[...]] field without a default is optional, with its field
    validators: a [str] field takes a string as it is and the text of a
    number; an [int] field takes an integer as it is and what [int(v)]
    makes of a string or a boolean.  A required field that is missing or
    [None] and a value no validator accepts fail the validation; keys the
    model does not declare are ignored. *)

Definition str_validator (v : json) : option string :=
  match v with
  | JStr s => Some s
  | JInt n => Some (pretty n)
  | JBool b => Some (if b then "True" else "False")
  | JNull | JArr _ | JObj _ => None
  end.

Definition int_validator (v : json) : option Z :=
  match v with
  | JInt n => Some n
  | JBool b => Some (if b then 1 else 0)
  | JStr s => int s
  | JNull | JArr _ | JObj _ => None
  end.

(** A field declared [name: T]. *)
Definition required {A : Type} (validator : json → option A)
    (name : string) (data : list (string * json)) : option A :=
  dict_get name data ≫= validator.

(** A field declared [name: Optional[T]]: absent and [None] both give
    [None]. *)
Definition optional {A : Type} (validator : json → option A)
    (name : string) (data : list (string * json)) : option (option A) :=
  match dict_get name data with
  | None | Some JNull => Some None
  | Some v => Some <$> validator v
  end.

Module CreateUserModel.
Record t := { username : string; password : string }.

(** The constructor call on the keyword arguments [data]; [None] is
    pydantic's [ValidationError]. *)
Definition validate (data : list (string * json)) : option t :=
  u ← required str_validator "username" data;
  p ← required str_validator "password" data;
  Some {| username := u; password := p |}.
End CreateUserModel.

Module CreateAdvModel.
Record t := { title : string; description : string; user_id : Z }.

Definition validate (data : list (string * json)) : option t :=
  t ← required str_validator "title" data;
  d ← required str_validator "description" data;
  u ← required int_validator "user_id" data;
  Some {| title := t; description := d; user_id := u |}.
End CreateAdvModel.

(** [.dict(exclude_none=True)] of a patch model: the items of the fields
    that are not [None], in declaration order.  Both patch models have
    [str] fields only. *)
Definition item_if_set (name : string) (v : option string) : list (string * string) :=
  match v with
  | Some s => [(name, s)]
  | None => []
  end.

Module PatchUserModel.
Record t := { username : option string; password : option string }.

Definition validate (data : list (string * json)) : option t :=
  u ← optional str_validator "username" data;
  p ← optional str_validator "password" data;
  Some {| username := u; password := p |}.

Definition dict_exclude_none (m : t) : list (string * string) :=
  item_if_set "username" (username m) ++ item_if_set "password" (password m).
End PatchUserModel.

Module PatchAdvModel.
Record t := { title : option string; description : option string }.

Definition validate (data : list (string * json)) : option t :=
  t ← optional str_validator "title" data;
  d ← optional str_validator "description" data;
  Some {| title := t; description := d |}.

Definition dict_exclude_none (m : t) : list (string * string) :=
  item_if_set "title" (title m) ++ item_if_set "description" (description m).
End PatchAdvModel.

(** ** Entities and tables

    A [DateTime] value is known to the program only through
    [.isoformat()]. *)

Record datetime := { isoformat : string }.

(** A row of [users]; the primary key [id] is the key the row is stored
    under. *)
Module User.
Record t := { username : string; password : string }.
End User.

(** A row of [advertisements].  [creation_time] and [user_id] are
    nullable columns. *)
Module Advertisement.
Record t := {
  title : string;
  description : string;
  creation_time : option datetime;
  user_id : option Z
}.
End Advertisement.

(** The database behind [Session]: the two tables by primary key and the
    sequences the keys are drawn from (the last value each has given). *)
Record Database := {
  users : gmap Z User.t;
  advertisements : gmap Z Advertisement.t;
  users_id_seq : Z;
  advertisements_id_seq : Z
}.

Definition empty_database : Database :=
  {| users := ∅; advertisements := ∅; users_id_seq := 0; advertisements_id_seq := 0 |}.

(** ** Errors and results *)

Inductive exn : Type :=
| HTTPException (status_code : Z) (text : json)
| HTTPNotFound
| HTTPMethodNotAllowed
| KeyError
| ValueError
| TypeError
| AttributeError
| JSONDecodeError
| ValidationError
| IntegrityError
| DataError.

(** [ApiError.__init__]: the text is the JSON of a status and the
    message; the subclasses fix [status_code]. *)
Definition ApiError (status_code : Z) (error_message : json) : exn :=
  HTTPException status_code
    (JObj [("status", JStr "error"); ("description", error_message)]).

Definition NotFound : json → exn := ApiError 404.
Definition BadRequest : json → exn := ApiError 400.

(** What a handler hands back: a response object, or, in the two [post]
    methods, a plain [dict]. *)
Inductive retval : Type :=
| Response (status : Z) (body : json)
| Dict (items : list (string * json)).

(** [web.json_response(data)]: status 200. *)
Definition json_response (data : json) : retval := Response 200 data.

Inductive result (A : Type) : Type :=
| Ok (a : A)
| Raise (e : exn).
Arguments Ok {A} a.
Arguments Raise {A} e.

(** A computation over the database that returns or raises. *)
Definition handler (A : Type) : Type := Database → Database * result A.

Definition ret {A : Type} (a : A) : handler A := λ db, (db, Ok a).

Definition raise {A : Type} (e : exn) : handler A := λ db, (db, Raise e).

Definition bind {A B : Type} (m : handler A) (f : A → handler B) : handler B :=
  λ db, match m db with
        | (db', Ok a) => f a db'
        | (db', Raise e) => (db', Raise e)
        end.

Notation "x ←@ m ; k" := (bind m (λ x, k))
  (at level 20, m at level 100, k at level 200, right associativity,
   format "x  ←@  m ;  '/' k").

(** [value] if there is one, else [raise e]. *)
Definition expect {A : Type} (e : exn) (value : option A) : handler A :=
  match value with
  | Some a => ret a
  | None => raise e
  end.

(** [try: body / except IntegrityError: on_error]. *)
Definition except_IntegrityError {A : Type} (body on_error : handler A) : handler A :=
  λ db, match body db with
        | (db', Raise IntegrityError) => on_error db'
        | r => r
        end.

(** ** The session's unit of work

    Each operation below is what one [await session.commit()] of a handler
    does to the database, with the constraints the schema declares:
    [users.username] is [String(60)], [unique] and not null, the primary
    keys are unique, [advertisements.user_id] references [users.id].  A
    value too long for its column is a [DataError], a violated constraint
    an [IntegrityError]; a commit that raises leaves the tables as they
    were (the session is closed without a commit), but a value drawn from
    a sequence is not given back. *)

Definition session_get {A : Type} (table : Database → gmap Z A) (pk : Z)
    : handler (option A) :=
  λ db, (db, Ok (table db !! pk)).

Definition username_taken (name : string) (table : gmap Z User.t) : bool :=
  existsb (λ row, String.eqb (User.username row.2) name) (map_to_list table).

Definition is_stored {A : Type} (table : gmap Z A) (pk : Z) : bool :=
  match table !! pk with
  | Some _ => true
  | None => false
  end.

(** [session.add(new_user)] and the commit: INSERT INTO users. *)
Definition add_User (new_user : User.t) : handler Z :=
  λ db,
    let pk := users_id_seq db + 1 in
    let db' := {| users := users db; advertisements := advertisements db;
                  users_id_seq := pk;
                  advertisements_id_seq := advertisements_id_seq db |} in
    if (60 <? String.length (User.username new_user))%nat then
      (db', Raise DataError)
    else if is_stored (users db) pk
            || username_taken (User.username new_user) (users db) then
      (db', Raise IntegrityError)
    else
      ({| users := <[pk := new_user]> (users db);
          advertisements := advertisements db;
          users_id_seq := pk;
          advertisements_id_seq := advertisements_id_seq db |}, Ok pk).

(** [session.add(new_adv)] and the commit: INSERT INTO advertisements.
    A [creation_time] left unset takes the server default [now()]. *)
Definition add_Advertisement (now : datetime) (new_adv : Advertisement.t)
    : handler Z :=
  λ db,
    let pk := advertisements_id_seq db + 1 in
    let db' := {| users := users db; advertisements := advertisements db;
                  users_id_seq := users_id_seq db;
                  advertisements_id_seq := pk |} in
    let owner_stored :=
      match Advertisement.user_id new_adv with
      | Some owner => is_stored (users db) owner
      | None => true
      end in
    if is_stored (advertisements db) pk || negb owner_stored then
      (db', Raise IntegrityError)
    else
      let row := {| Advertisement.title := Advertisement.title new_adv;
                    Advertisement.description := Advertisement.description new_adv;
                    Advertisement.creation_time :=
                      Some (default now (Advertisement.creation_time new_adv));
                    Advertisement.user_id := Advertisement.user_id new_adv |} in
      ({| users := users db;
          advertisements := <[pk := row]> (advertisements db);
          users_id_seq := users_id_seq db;
          advertisements_id_seq := pk |}, Ok pk).

(** [session.add(user)] on a loaded row and the commit: an UPDATE of the
    columns whose value changed; [loaded] is the row as it was read. *)
Definition update_User (pk : Z) (loaded user : User.t) : handler unit :=
  λ db,
    let db' := {| users := <[pk := user]> (users db);
                  advertisements := advertisements db;
                  users_id_seq := users_id_seq db;
                  advertisements_id_seq := advertisements_id_seq db |} in
    if String.eqb (User.username user) (User.username loaded) then (db', Ok tt)
    else if (60 <? String.length (User.username user))%nat then
      (db, Raise DataError)
    else if username_taken (User.username user) (users db) then
      (db, Raise IntegrityError)
    else (db', Ok tt).

Definition update_Advertisement (pk : Z) (adv : Advertisement.t) : handler unit :=
  λ db,
    ({| users := users db;
        advertisements := <[pk := adv]> (advertisements db);
        users_id_seq := users_id_seq db;
        advertisements_id_seq := advertisements_id_seq db |}, Ok tt).

(** The relationship [User.advertisements] has no delete cascade: when
    its user is deleted, an advertisement is kept and its [user_id] is set
    to NULL. *)
Definition disown (owner : Z) (adv : Advertisement.t) : Advertisement.t :=
  if bool_decide (Advertisement.user_id adv = Some owner) then
    {| Advertisement.title := Advertisement.title adv;
       Advertisement.description := Advertisement.description adv;
       Advertisement.creation_time := Advertisement.creation_time adv;
       Advertisement.user_id := None |}
  else adv.

(** [await session.delete(user)] and the commit. *)
Definition delete_User (pk : Z) : handler unit :=
  λ db,
    ({| users := delete pk (users db);
        advertisements := disown pk <$> advertisements db;
        users_id_seq := users_id_seq db;
        advertisements_id_seq := advertisements_id_seq db |}, Ok tt).

(** [await session.delete(adv)] and the commit. *)
Definition delete_Advertisement (pk : Z) : handler unit :=
  λ db,
    ({| users := users db;
        advertisements := delete pk (advertisements db);
        users_id_seq := users_id_seq db;
        advertisements_id_seq := advertisements_id_seq db |}, Ok tt).

(** ** Entity lookup *)

Definition get_user (user_id : Z) : handler User.t :=
  user ←@ session_get users user_id;
  match user with
  | None => raise (NotFound (JStr "user not found"))
  | Some user => ret user
  end.

Definition get_adv (adv_id : Z) : handler Advertisement.t :=
  adv ←@ session_get advertisements adv_id;
  match adv with
  | None => raise (NotFound (JStr "advertisement not found"))
  | Some adv => ret adv
  end.

(** ** Request handlers *)

(** What a handler reads of [self.request]: the parameters the route
    matched and the parsed body ([None] when the body is not JSON, where
    [await self.request.json()] raises). *)
Record Request := {
  match_info : list (string * string);
  request_json : option json
}.

(** [int(self.request.match_info[name])]. *)
Definition match_info_int (request : Request) (name : string) : handler Z :=
  segment ←@ expect KeyError (dict_get name (match_info request));
  expect ValueError (int segment).

(** The keyword arguments a model is called with, the items of
    [json_data]: unpacking anything but a mapping is a [TypeError]. *)
Definition kwargs (json_data : json) : handler (list (string * json)) :=
  match json_data with
  | JObj items => ret items
  | _ => raise TypeError
  end.

(** [setattr(user, column, value)]; a name that is no column does not
    reach the row. *)
Definition setattr_User (user : User.t) (item : string * string) : User.t :=
  let (column, value) := item in
  if String.eqb column "username" then
    {| User.username := value; User.password := User.password user |}
  else if String.eqb column "password" then
    {| User.username := User.username user; User.password := value |}
  else user.

Definition setattr_Advertisement (adv : Advertisement.t) (item : string * string)
    : Advertisement.t :=
  let (column, value) := item in
  if String.eqb column "title" then
    {| Advertisement.title := value;
       Advertisement.description := Advertisement.description adv;
       Advertisement.creation_time := Advertisement.creation_time adv;
       Advertisement.user_id := Advertisement.user_id adv |}
  else if String.eqb column "description" then
    {| Advertisement.title := Advertisement.title adv;
       Advertisement.description := value;
       Advertisement.creation_time := Advertisement.creation_time adv;
       Advertisement.user_id := Advertisement.user_id adv |}
  else adv.

Definition json_of_option_int (v : option Z) : json :=
  match v with
  | Some n => JInt n
  | None => JNull
  end.

Definition UserView_get (request : Request) : handler retval :=
  user_id ←@ match_info_int request "user_id";
  user ←@ get_user user_id;
  ret (json_response (JObj [("id_user", JInt user_id);
                            ("username", JStr (User.username user))])).

Definition UserView_post (request : Request) : handler retval :=
  json_data ←@ expect JSONDecodeError (request_json request);
  data ←@ kwargs json_data;
  json_data ←@ expect ValidationError (CreateUserModel.validate data);
  let new_user := {| User.username := CreateUserModel.username json_data;
                     User.password := CreateUserModel.password json_data |} in
  id ←@ except_IntegrityError (add_User new_user)
          (raise (BadRequest (JStr "user already exists")));
  ret (Dict [("id", JInt id)]).

Definition UserView_delete (request : Request) : handler retval :=
  user_id ←@ match_info_int request "user_id";
  user ←@ get_user user_id;
  _ ←@ delete_User user_id;
  ret (json_response (JObj [("status", JStr "succes")])).

Definition UserView_patch (request : Request) : handler retval :=
  user_id ←@ match_info_int request "user_id";
  json_data ←@ expect JSONDecodeError (request_json request);
  data ←@ kwargs json_data;
  json_data ←@ expect ValidationError (PatchUserModel.validate data);
  let json_data := PatchUserModel.dict_exclude_none json_data in
  user ←@ get_user user_id;
  _ ←@ update_User user_id user (fold_left setattr_User json_data user);
  ret (json_response (JObj [("status", JStr "success")])).

Definition AdvView_get (request : Request) : handler retval :=
  adv_id ←@ match_info_int request "adv_id";
  adv ←@ get_adv adv_id;
  creation_time ←@ expect AttributeError (Advertisement.creation_time adv);
  ret (json_response
         (JObj [("title", JStr (Advertisement.title adv));
                ("description", JStr (Advertisement.description adv));
                ("date", JStr (isoformat creation_time));
                ("user_id", json_of_option_int (Advertisement.user_id adv))])).

(** [now] is the time of the database server at the INSERT. *)
Definition AdvView_post (now : datetime) (request : Request) : handler retval :=
  json_data ←@ expect JSONDecodeError (request_json request);
  data ←@ kwargs json_data;
  json_data ←@ expect ValidationError (CreateAdvModel.validate data);
  let new_adv := {| Advertisement.title := CreateAdvModel.title json_data;
                    Advertisement.description := CreateAdvModel.description json_data;
                    Advertisement.creation_time := None;
                    Advertisement.user_id := Some (CreateAdvModel.user_id json_data) |} in
  id ←@ except_IntegrityError (add_Advertisement now new_adv)
          (raise (BadRequest (JStr "advertisement already exists")));
  ret (Dict [("id", JInt id)]).

Definition AdvView_delete (request : Request) : handler retval :=
  adv_id ←@ match_info_int request "adv_id";
  adv ←@ get_adv adv_id;
  _ ←@ delete_Advertisement adv_id;
  ret (json_response (JObj [("status", JStr "succes")])).

Definition AdvView_patch (request : Request) : handler retval :=
  adv_id ←@ match_info_int request "adv_id";
  json_data ←@ expect JSONDecodeError (request_json request);
  data ←@ kwargs json_data;
  json_data ←@ expect ValidationError (PatchAdvModel.validate data);
  let json_data := PatchAdvModel.dict_exclude_none json_data in
  adv ←@ get_adv adv_id;
  _ ←@ update_Advertisement adv_id (fold_left setattr_Advertisement json_data adv);
  ret (json_response (JObj [("status", JStr "success")])).

(** ** Routes *)

Inductive method : Type := GET | POST | DELETE | PATCH | PUT | HEAD | OPTIONS.

Global Instance method_eq_dec : EqDecision method.
Proof. solve_decision. Defined.

Inductive view : Type := AdvView | UserView.

(** A route [add_route(method, path, view)]: [path] is [prefix] alone, or
    [prefix] followed by one parameter [{name:\d+}]. *)
Record route := {
  route_method : method;
  route_prefix : string;
  route_param : option string;
  route_view : view
}.

Definition routes : list route := [
  {| route_method := POST; route_prefix := "/advs/"; route_param := None;
     route_view := AdvView |};
  {| route_method := GET; route_prefix := "/advs/"; route_param := Some "adv_id";
     route_view := AdvView |};
  {| route_method := DELETE; route_prefix := "/advs/"; route_param := Some "adv_id";
     route_view := AdvView |};
  {| route_method := PATCH; route_prefix := "/advs/"; route_param := Some "adv_id";
     route_view := AdvView |};
  {| route_method := POST; route_prefix := "/users/"; route_param := None;
     route_view := UserView |};
  {| route_method := GET; route_prefix := "/users/"; route_param := Some "user_id";
     route_view := UserView |};
  {| route_method := DELETE; route_prefix := "/users/"; route_param := Some "user_id";
     route_view := UserView |};
  {| route_method := PATCH; route_prefix := "/users/"; route_param := Some "user_id";
     route_view := UserView |}
].

(** The whole of [segment] matches [\d+]. *)
Definition match_digits (segment : string) : bool :=
  match list_ascii_of_string segment with
  | [] => false
  | cs => forallb is_digit cs
  end.

Fixpoint strip_prefix (prefix s : string) : option string :=
  match prefix, s with
  | EmptyString, _ => Some s
  | String a prefix', String b s' =>
      if Ascii.eqb a b then strip_prefix prefix' s' else None
  | String _ _, EmptyString => None
  end.

(** The [match_info] of [path] under the route's pattern, if the whole
    path matches it. *)
Definition route_match (r : route) (path : string) : option (list (string * string)) :=
  rest ← strip_prefix (route_prefix r) path;
  match route_param r with
  | None => if String.eqb rest "" then Some [] else None
  | Some name => if match_digits rest then Some [(name, rest)] else None
  end.

(** The first route of the method whose pattern matches the path. *)
Fixpoint resolve (table : list route) (m : method) (path : string)
    : option (view * list (string * string)) :=
  match table with
  | [] => None
  | r :: table' =>
      match route_match r path with
      | Some info =>
          if bool_decide (route_method r = m) then Some (route_view r, info)
          else resolve table' m path
      | None => resolve table' m path
      end
  end.

(** [web.View]: the method of the class named after the HTTP method. *)
Definition View (v : view) (m : method) (now : datetime) (request : Request)
    : handler retval :=
  match v, m with
  | UserView, GET => UserView_get request
  | UserView, POST => UserView_post request
  | UserView, DELETE => UserView_delete request
  | UserView, PATCH => UserView_patch request
  | AdvView, GET => AdvView_get request
  | AdvView, POST => AdvView_post now request
  | AdvView, DELETE => AdvView_delete request
  | AdvView, PATCH => AdvView_patch request
  | _, _ => raise HTTPMethodNotAllowed
  end.

Record HttpRequest := {
  http_method : method;
  http_path : string;
  http_json : option json
}.

(** One request through the application: resolve the route, call the
    view.  A path no pattern matches is the router's 404, a path matched
    only under other methods its 405. *)
Definition serve (now : datetime) (req : HttpRequest) : handler retval :=
  match resolve routes (http_method req) (http_path req) with
  | Some (v, info) =>
      View v (http_method req) now
        {| match_info := info; request_json := http_json req |}
  | None =>
      if existsb (λ r, bool_decide (is_Some (route_match r (http_path req)))) routes
      then raise HTTPMethodNotAllowed
      else raise HTTPNotFound
  end.

(** The requests of a list served one after the other, each with the
    server time of its arrival; the database after the last. *)
Definition serve_all (reqs : list (datetime * HttpRequest)) (db : Database)
    : Database :=
  fold_left (λ db r, (serve r.1 r.2 db).1) reqs db.

(** ** What the client is sent

    The listener sends a response object as it is and a raised
    [HTTPException] as the response it is.  Anything else (a return value
    that is no response object, any other exception) is left to the
    listener's own error path and is no reply of the application. *)
Definition http_reply (r : result retval) : option (Z * json) :=
  match r with
  | Ok (Response status body) => Some (status, body)
  | Raise (HTTPException status_code text) => Some (status_code, text)
  | Ok (Dict _) | Raise _ => None
  end.

(** The data a handler returned, response object or not. *)
Definition returned_data (r : result retval) : option json :=
  match r with
  | Ok (Response _ body) => Some body
  | Ok (Dict items) => Some (JObj items)
  | Raise _ => None
  end.


(** ** Vocabulary of the properties *)

(** The route parameter [name] of the request reads as the integer [id]. *)
Definition addressed (request : Request) (name : string) (id : Z) : Prop :=
  ∃ segment, dict_get name (match_info request) = Some segment ∧
             int segment = Some id.

(** The body of an [ApiError]. *)
Definition error_body (description : string) : json :=
  JObj [("status", JStr "error"); ("description", JStr description)].

(** The field [name] is absent from the body or [null]. *)
Definition unset (name : string) (data : list (string * json)) : Prop :=
  dict_get name data = None ∨ dict_get name data = Some JNull.

(** What one request can do to the database: nothing, or the one commit
    of a handler. *)
Inductive commit (db : Database) : Database → Prop :=
| commit_none : commit db db
| commit_add_User new_user :
    commit db (add_User new_user db).1
| commit_add_Advertisement now new_adv :
    commit db (add_Advertisement now new_adv db).1
| commit_update_User pk loaded items :
    users db !! pk = Some loaded →
    commit db (update_User pk loaded (fold_left setattr_User items loaded) db).1
| commit_update_Advertisement pk loaded items :
    advertisements db !! pk = Some loaded →
    commit db (update_Advertisement pk
                 (fold_left setattr_Advertisement items loaded) db).1
| commit_delete_User pk loaded :
    users db !! pk = Some loaded → commit db (delete_User pk db).1
| commit_delete_Advertisement pk loaded :
    advertisements db !! pk = Some loaded →
    commit db (delete_Advertisement pk db).1.

(** The constraints of the schema hold and no stored key is ahead of its
    sequence. *)
Record consistent (db : Database) : Prop := {
  users_below_seq :
    ∀ k row, users db !! k = Some row → k ≤ users_id_seq db;
  advertisements_below_seq :
    ∀ k row, advertisements db !! k = Some row → k ≤ advertisements_id_seq db;
  username_fits :
    ∀ k row, users db !! k = Some row →
             (String.length (User.username row) ≤ 60)%nat;
  username_unique :
    ∀ k1 k2 row1 row2,
      users db !! k1 = Some row1 → users db !! k2 = Some row2 →
      User.username row1 = User.username row2 → k1 = k2;
  owner_stored :
    ∀ k adv owner,
      advertisements db !! k = Some adv →
      Advertisement.user_id adv = Some owner → is_Some (users db !! owner);
  creation_time_set :
    ∀ k adv, advertisements db !! k = Some adv →
             is_Some (Advertisement.creation_time adv)
}.




(** ** Sample requests and databases *)

Definition sample_time : datetime := {| isoformat := "2024-05-01T12:00:00" |}.

(** A request to a collection route, with a JSON object as body. *)
Definition post_request (data : list (string * json)) : Request :=
  {| match_info := []; request_json := Some (JObj data) |}.

(** A request to an item route whose id segment is [segment]. *)
Definition id_request (name segment : string) (body : option json) : Request :=
  {| match_info := [(name, segment)]; request_json := body |}.

Definition alice_data : list (string * json) :=
  [("username", JStr "alice"); ("password", JStr "pw1")].

Definition alice : User.t := {| User.username := "alice"; User.password := "pw1" |}.

Definition bike_data : list (string * json) :=
  [("title", JStr "bike"); ("description", JStr "red"); ("user_id", JInt 1)].

(** A username of 61 characters. *)
Definition long_username : string :=
  "aaaaaaaaaaaaaaaaaaaaaaaaaaaaaaaaaaaaaaaaaaaaaaaaaaaaaaaaaaaaa".

(** The database after [POST /users/] with [alice_data], and after a
    following [POST /advs/] with [bike_data]. *)
Definition alice_database : Database :=
  serve_all
    [(sample_time, {| http_method := POST; http_path := "/users/";
                      http_json := Some (JObj alice_data) |})]
    empty_database.

Definition bike_database : Database :=
  serve_all
    [(sample_time, {| http_method := POST; http_path := "/advs/";
                      http_json := Some (JObj bike_data) |})]
    alice_database.


(** [alice_database] after [PATCH /users/1] with another password. *)
Definition alice_database_other_password : Database :=
  serve_all
    [(sample_time, {| http_method := PATCH; http_path := "/users/1";
                      http_json := Some (JObj [("password", JStr "other")]) |})]
    alice_database.

(** ** Vocabulary of the further properties *)

(** [h] leaves the database as it is, whether it returns or raises. *)
Definition reads_only {A : Type} (h : handler A) : Prop :=
  ∀ db, (h db).1 = db.

(** When [h] raises, both tables are as they were before. *)
Definition atomic {A : Type} (h : handler A) : Prop :=
  ∀ db db' e, h db = (db', Raise e) →
              users db' = users db ∧ advertisements db' = advertisements db.






(** ** Further sample requests and databases *)

Definition bob_data : list (string * json) :=
  [("username", JStr "bob"); ("password", JStr "pw2")].

Definition post_users (data : list (string * json)) : HttpRequest :=
  {| http_method := POST; http_path := "/users/"; http_json := Some (JObj data) |}.

Definition get_users (segment : string) : HttpRequest :=
  {| http_method := GET; http_path := "/users/" +:+ segment; http_json := None |}.

Definition delete_users (segment : string) : HttpRequest :=
  {| http_method := DELETE; http_path := "/users/" +:+ segment;
     http_json := None |}.

(** [alice_database] after [POST /users/] with [bob_data]. *)
Definition two_users_database : Database :=
  serve_all [(sample_time, post_users bob_data)] alice_database.

(** * Properties *)

(** ** Decimal segments and [int] *)








(** ** Routing *)




Lemma match_info_int_Ok request name segment id db :
  dict_get name (match_info request) = Some segment → int segment = Some id →
  match_info_int request name db = (db, Ok id).
Proof. unfold match_info_int, bind, expect, ret. by intros -> ->. Qed.

(** ** Running a handler *)

Lemma match_info_int_addressed request name id db :
  addressed request name id → match_info_int request name db = (db, Ok id).
Proof. intros (segment & ? & ?). by eapply match_info_int_Ok. Qed.

(** Unfolds a handler applied to a database down to the storage
    operations, using what is known of the request. *)
Ltac run_handler :=
  unfold UserView_get, UserView_post, UserView_delete, UserView_patch,
         AdvView_get, AdvView_post, AdvView_delete, AdvView_patch,
         get_user, get_adv, session_get, kwargs;
  unfold bind at 1;
  repeat first
    [ progress (erewrite match_info_int_addressed by eassumption)
    | progress (unfold bind, expect, ret, raise, except_IntegrityError; simpl)
    | match goal with
      | H : ?x = _ |- context [?x] => rewrite H
      end ].


(** ** Validation *)

Lemma optional_unset {A : Type} (validator : json → option A) name data :
  unset name data → optional validator name data = Some None.
Proof. unfold optional. by intros [-> | ->]. Qed.


Lemma required_str name data s :
  dict_get name data = Some (JStr s) → required str_validator name data = Some s.
Proof. unfold required. by intros ->. Qed.



(** C9: a patch whose body has no field of the patch model with a value
    other than [null] returns status 200 with [{"status": "success"}] and
    leaves the database, hence every field of the entity, as it was. *)
Theorem patch_without_fields_is_identity
    (db : Database) (request : Request) (id : Z) (data : list (string * json)) :
  request_json request = Some (JObj data) →
  (addressed request "user_id" id → is_Some (users db !! id) →
   unset "username" data → unset "password" data →
     UserView_patch request db
       = (db, Ok (Response 200 (JObj [("status", JStr "success")])))) ∧
  (addressed request "adv_id" id → is_Some (advertisements db !! id) →
   unset "title" data → unset "description" data →
     AdvView_patch request db
       = (db, Ok (Response 200 (JObj [("status", JStr "success")])))).
Proof.
  intros Hjson. split; intros Hid [row Hrow] H1 H2.
  - run_handler. unfold PatchUserModel.validate.
    rewrite !optional_unset by done. simpl.
    rewrite Hrow. unfold update_User. simpl. rewrite String.eqb_refl.
    rewrite insert_id by done. by destruct db.
  - run_handler. unfold PatchAdvModel.validate.
    rewrite !optional_unset by done. simpl.
    rewrite Hrow. unfold update_Advertisement. simpl.
    rewrite insert_id by done. by destruct db.
Qed.

(** ** Reads *)

Lemma match_info_int_pure request name db :
  match_info_int request name db = (db, (match_info_int request name db).2).
Proof.
  unfold match_info_int, bind, expect, ret, raise.
  destruct (dict_get name (match_info request)) as [segment|]; [|done].
  by destruct (int segment).
Qed.

Lemma match_info_int_independent request name db1 db2 :
  (match_info_int request name db1).2 = (match_info_int request name db2).2.
Proof.
  unfold match_info_int, bind, expect, ret, raise.
  destruct (dict_get name (match_info request)) as [segment|]; [|done].
  by destruct (int segment).
Qed.

(** C8: the response of the user read is [{id_user, username}] and does
    not depend on any stored password: two databases whose users have the
    same names under the same keys get the same response to every read of
    a user, whatever the passwords; the read of an advertisement depends
    on the advertisements table alone. *)
Theorem reads_do_not_depend_on_passwords (db1 db2 : Database) (request : Request) :
  (User.username <$> users db1 = User.username <$> users db2 →
     (UserView_get request db1).2 = (UserView_get request db2).2) ∧
  (advertisements db1 = advertisements db2 →
     (AdvView_get request db1).2 = (AdvView_get request db2).2) ∧
  (∀ id user, addressed request "user_id" id → users db1 !! id = Some user →
     (UserView_get request db1).2
       = Ok (Response 200 (JObj [("id_user", JInt id);
                                 ("username", JStr (User.username user))]))).
Proof.
  split; [|split].
  - intros Hnames. unfold UserView_get. unfold bind at 1 3.
    rewrite (match_info_int_pure request "user_id" db1),
            (match_info_int_pure request "user_id" db2),
            (match_info_int_independent request "user_id" db1 db2).
    destruct (match_info_int request "user_id" db2).2 as [id|e]; [|done].
    pose proof (f_equal (.!! id) Hnames) as Hid. simpl in Hid.
    rewrite !lookup_fmap in Hid.
    unfold get_user, session_get, bind, ret, raise.
    destruct (users db1 !! id) as [u1|], (users db2 !! id) as [u2|];
      simplify_eq/=; by try congruence.
  - intros Hadvs. unfold AdvView_get. unfold bind at 1 4.
    rewrite (match_info_int_pure request "adv_id" db1),
            (match_info_int_pure request "adv_id" db2),
            (match_info_int_independent request "adv_id" db1 db2).
    destruct (match_info_int request "adv_id" db2).2 as [id|e]; [|done].
    unfold get_adv, session_get, bind, ret, raise, expect. rewrite Hadvs.
    destruct (advertisements db2 !! id) as [adv|]; [|done].
    by destruct (Advertisement.creation_time adv).
  - intros id user Hid Huser. by run_handler.
Qed.

(** ** The id parameter of a routed request *)


(** ** What a handler can raise *)




















(** ** One request, at most one commit *)

Lemma commit_bind_pure {A B : Type} (m : handler A) (f : A → handler B) db :
  (m db).1 = db → (∀ a, (m db).2 = Ok a → commit db (f a db).1) →
  commit db (bind m f db).1.
Proof.
  unfold bind. destruct (m db) as [db1 [a|e]]; simpl; intros -> Hf.
  - by apply Hf.
  - constructor.
Qed.

Lemma bind_ret_fst {A B : Type} (m : handler A) (b : A → B) db :
  (bind m (λ a, ret (b a)) db).1 = (m db).1.
Proof. unfold bind, ret. by destruct (m db) as [db1 [a|e]]. Qed.

Lemma except_raise_fst {A : Type} (body : handler A) e db :
  (except_IntegrityError body (raise e) db).1 = (body db).1.
Proof.
  unfold except_IntegrityError, raise.
  by destruct (body db) as [db1 [a|[]]].
Qed.

Lemma match_info_int_fst request name db : (match_info_int request name db).1 = db.
Proof. by rewrite match_info_int_pure. Qed.

Lemma expect_fst {A : Type} e (value : option A) db : (expect e value db).1 = db.
Proof. by destruct value. Qed.

Lemma kwargs_fst json_data db : (kwargs json_data db).1 = db.
Proof. by destruct json_data. Qed.

Lemma get_user_Ok user_id db :
  (get_user user_id db).1 = db ∧
  ∀ user, (get_user user_id db).2 = Ok user → users db !! user_id = Some user.
Proof.
  unfold get_user, session_get, bind, ret, raise.
  destruct (users db !! user_id); simpl; split; congruence.
Qed.

Lemma get_adv_Ok adv_id db :
  (get_adv adv_id db).1 = db ∧
  ∀ adv, (get_adv adv_id db).2 = Ok adv → advertisements db !! adv_id = Some adv.
Proof.
  unfold get_adv, session_get, bind, ret, raise.
  destruct (advertisements db !! adv_id); simpl; split; congruence.
Qed.

Ltac commit_step :=
  first
    [ apply commit_bind_pure;
        [ first [ apply match_info_int_fst | apply expect_fst | apply kwargs_fst
                | apply get_user_Ok | apply get_adv_Ok ]
        | intros ? ? ]
    | rewrite bind_ret_fst
    | rewrite except_raise_fst
    | match goal with
      | H : (get_user _ _).2 = Ok _ |- _ => apply get_user_Ok in H
      | H : (get_adv _ _).2 = Ok _ |- _ => apply get_adv_Ok in H
      end ].

Lemma serve_commit now req db : commit db (serve now req db).1.
Proof.
  unfold serve.
  destruct (resolve routes (http_method req) (http_path req)) as [[v info]|].
  - destruct v, (http_method req); simpl; try constructor;
      unfold UserView_get, UserView_post, UserView_delete, UserView_patch,
             AdvView_get, AdvView_post, AdvView_delete, AdvView_patch;
      repeat commit_step; eauto using commit.
  - case_match; constructor.
Qed.

(** ** The storage operations keep the database consistent *)

Lemma username_taken_true name table :
  username_taken name table = true ↔
  ∃ k row, table !! k = Some row ∧ User.username row = name.
Proof.
  unfold username_taken. rewrite existsb_exists. split.
  - intros ([k row] & Hin & Heq). exists k, row. split.
    + by apply elem_of_map_to_list, list_elem_of_In.
    + by apply String.eqb_eq.
  - intros (k & row & Hrow & Heq). exists (k, row). split.
    + by apply list_elem_of_In, elem_of_map_to_list.
    + by apply String.eqb_eq.
Qed.

Lemma username_taken_false name table :
  username_taken name table = false ↔
  ∀ k row, table !! k = Some row → User.username row ≠ name.
Proof.
  rewrite <- not_true_iff_false, username_taken_true. split.
  - intros H k row Hrow Heq. apply H. eauto.
  - intros H (k & row & Hrow & Heq). by eapply H.
Qed.

Lemma is_stored_true {A : Type} (table : gmap Z A) pk :
  is_stored table pk = true ↔ is_Some (table !! pk).
Proof.
  unfold is_stored. destruct (table !! pk); split; try done; by intros [? ?].
Qed.

Lemma is_stored_false {A : Type} (table : gmap Z A) pk :
  is_stored table pk = false ↔ table !! pk = None.
Proof. unfold is_stored. by destruct (table !! pk). Qed.

Lemma consistent_empty : consistent empty_database.
Proof. split; simpl; intros *; by rewrite lookup_empty. Qed.

(** Drawing from the sequences keeps the database consistent. *)
Lemma consistent_seq db users_seq advs_seq :
  consistent db →
  users_id_seq db ≤ users_seq → advertisements_id_seq db ≤ advs_seq →
  consistent {| users := users db; advertisements := advertisements db;
                users_id_seq := users_seq; advertisements_id_seq := advs_seq |}.
Proof.
  intros [] ??. split; simpl; eauto.
  - intros k row Hrow. etrans; [by eapply users_below_seq0|done].
  - intros k row Hrow. etrans; [by eapply advertisements_below_seq0|done].
Qed.

Lemma add_User_consistent new_user db :
  consistent db → consistent (add_User new_user db).1.
Proof.
  intros Hdb. unfold add_User.
  destruct (60 <? String.length (User.username new_user))%nat eqn:Hlen.
  { apply consistent_seq; [done|lia..]. }
  destruct (is_stored (users db) (users_id_seq db + 1)
            || username_taken (User.username new_user) (users db)) eqn:Htaken.
  { apply consistent_seq; [done|lia..]. }
  apply orb_false_elim in Htaken as [_ Htaken].
  rewrite username_taken_false in Htaken.
  apply Nat.ltb_ge in Hlen.
  destruct Hdb. split; simpl.
  - intros k row [[<- <-]|[_ Hrow]]%lookup_insert_Some; [lia|].
    apply users_below_seq0 in Hrow. lia.
  - done.
  - intros k row [[<- <-]|[_ Hrow]]%lookup_insert_Some; eauto.
  - intros k1 k2 row1 row2
      [[<- <-]|[? H1]]%lookup_insert_Some [[<- <-]|[? H2]]%lookup_insert_Some Heq;
      try done.
    + by destruct (Htaken _ _ H2).
    + by destruct (Htaken _ _ H1).
    + eauto.
  - intros k adv owner Hadv Howner. rewrite lookup_insert_is_Some'. right.
    eauto.
  - done.
Qed.

Lemma add_Advertisement_consistent now new_adv db :
  consistent db → consistent (add_Advertisement now new_adv db).1.
Proof.
  intros Hdb. unfold add_Advertisement.
  destruct (is_stored (advertisements db) (advertisements_id_seq db + 1)
            || negb match Advertisement.user_id new_adv with
                    | Some owner => is_stored (users db) owner
                    | None => true
                    end) eqn:Hrejected.
  { apply consistent_seq; [done|lia..]. }
  apply orb_false_elim in Hrejected as [_ Howner].
  apply negb_false_iff in Howner.
  destruct Hdb. split; simpl; try done.
  - intros k row [[<- <-]|[_ Hrow]]%lookup_insert_Some; [lia|].
    apply advertisements_below_seq0 in Hrow. lia.
  - intros k adv owner [[<- <-]|[_ Hadv]]%lookup_insert_Some; simpl; [|eauto].
    intros Heq. rewrite Heq in Howner. by apply is_stored_true.
  - intros k adv [[<- <-]|[_ Hadv]]%lookup_insert_Some; simpl; eauto.
Qed.

Lemma update_User_consistent pk loaded user db :
  consistent db → users db !! pk = Some loaded →
  consistent (update_User pk loaded user db).1.
Proof.
  intros Hdb Hloaded. unfold update_User.
  assert (Hstep :
    (String.length (User.username user) ≤ 60)%nat →
    (∀ k row, users db !! k = Some row → k ≠ pk →
              User.username row ≠ User.username user) →
    consistent {| users := <[pk := user]> (users db);
                  advertisements := advertisements db;
                  users_id_seq := users_id_seq db;
                  advertisements_id_seq := advertisements_id_seq db |}).
  { intros Hlen Hfree. destruct Hdb. split; simpl; try done.
    - intros k row [[<- <-]|[_ Hrow]]%lookup_insert_Some; eauto.
    - intros k row [[<- <-]|[_ Hrow]]%lookup_insert_Some; eauto.
    - intros k1 k2 row1 row2
        [[<- <-]|[? H1]]%lookup_insert_Some
        [[<- <-]|[? H2]]%lookup_insert_Some Heq; try done.
      + by destruct (Hfree _ _ H2).
      + by destruct (Hfree _ _ H1).
      + eauto.
    - intros k adv owner Hadv Howner. rewrite lookup_insert_is_Some'. right.
      eauto. }
  destruct (String.eqb (User.username user) (User.username loaded)) eqn:Hsame.
  { apply String.eqb_eq in Hsame. simpl. apply Hstep.
    - rewrite Hsame. by eapply username_fits.
    - intros k row Hrow Hne Heq. apply Hne.
      eapply (username_unique db Hdb); [done..|]. congruence. }
  destruct (60 <? String.length (User.username user))%nat eqn:Hlen; [done|].
  destruct (username_taken (User.username user) (users db)) eqn:Htaken; [done|].
  simpl. apply Hstep.
  - by apply Nat.ltb_ge.
  - intros k row Hrow _. by eapply username_taken_false.
Qed.

Lemma setattr_Advertisement_frame items adv :
  Advertisement.creation_time (fold_left setattr_Advertisement items adv)
    = Advertisement.creation_time adv ∧
  Advertisement.user_id (fold_left setattr_Advertisement items adv)
    = Advertisement.user_id adv.
Proof.
  revert adv. induction items as [|[column value] items IH]; intros adv; [done|].
  destruct (IH (setattr_Advertisement adv (column, value))) as [Htime Hown].
  split; (etrans; [done|]); unfold setattr_Advertisement; by repeat case_match.
Qed.

Lemma update_Advertisement_consistent pk loaded items db :
  consistent db → advertisements db !! pk = Some loaded →
  consistent (update_Advertisement pk
                (fold_left setattr_Advertisement items loaded) db).1.
Proof.
  intros Hdb Hloaded. unfold update_Advertisement. simpl.
  destruct (setattr_Advertisement_frame items loaded) as [Htime Hown].
  destruct Hdb. split; simpl; try done.
  - intros k row [[<- <-]|[_ Hrow]]%lookup_insert_Some; eauto.
  - intros k adv owner [[<- <-]|[_ Hadv]]%lookup_insert_Some; [|eauto].
    rewrite Hown. eauto.
  - intros k adv [[<- <-]|[_ Hadv]]%lookup_insert_Some; [|eauto].
    rewrite Htime. eauto.
Qed.

Lemma disown_user_id pk adv owner :
  Advertisement.user_id (disown pk adv) = Some owner →
  owner ≠ pk ∧ Advertisement.user_id adv = Some owner.
Proof.
  unfold disown. case_bool_decide as Hpk; simpl; [done|].
  intros Heq. split; [|done]. intros ->. by apply Hpk.
Qed.

Lemma disown_creation_time pk adv :
  Advertisement.creation_time (disown pk adv) = Advertisement.creation_time adv.
Proof. unfold disown. by case_bool_decide. Qed.

Lemma delete_User_consistent pk db :
  consistent db → consistent (delete_User pk db).1.
Proof.
  intros []. unfold delete_User. split; simpl; try done.
  - intros k row [_ Hrow]%lookup_delete_Some. eauto.
  - intros k row (adv & _ & Hadv)%lookup_fmap_Some. eauto.
  - intros k row [_ Hrow]%lookup_delete_Some. eauto.
  - intros k1 k2 row1 row2 [_ H1]%lookup_delete_Some [_ H2]%lookup_delete_Some.
    eauto.
  - intros k row owner (adv & <- & Hadv)%lookup_fmap_Some
      [Hne Howner]%disown_user_id.
    rewrite lookup_delete_ne by done. eauto.
  - intros k row (adv & <- & Hadv)%lookup_fmap_Some.
    rewrite disown_creation_time. eauto.
Qed.

Lemma delete_Advertisement_consistent pk db :
  consistent db → consistent (delete_Advertisement pk db).1.
Proof.
  intros []. unfold delete_Advertisement. split; simpl; try done.
  - intros k row [_ Hrow]%lookup_delete_Some. eauto.
  - intros k row owner [_ Hrow]%lookup_delete_Some. eauto.
  - intros k row [_ Hrow]%lookup_delete_Some. eauto.
Qed.

(** Every commit, hence every request, keeps the database consistent. *)
Lemma commit_consistent db db' : commit db db' → consistent db → consistent db'.
Proof.
  destruct 1; intros Hdb;
    eauto using add_User_consistent, add_Advertisement_consistent,
      update_User_consistent, update_Advertisement_consistent,
      delete_User_consistent, delete_Advertisement_consistent.
Qed.

Lemma serve_consistent now req db :
  consistent db → consistent (serve now req db).1.
Proof. apply commit_consistent, serve_commit. Qed.

Lemma serve_all_consistent reqs db :
  consistent db → consistent (serve_all reqs db).
Proof.
  revert db. induction reqs as [|[now req] reqs IH]; intros db Hdb; [done|].
  apply IH. by apply serve_consistent.
Qed.

(** ** Create *)

Lemma UserView_post_run request data m db :
  request_json request = Some (JObj data) →
  CreateUserModel.validate data = Some m →
  UserView_post request db
  = match add_User {| User.username := CreateUserModel.username m;
                      User.password := CreateUserModel.password m |} db with
    | (db', Ok id) => (db', Ok (Dict [("id", JInt id)]))
    | (db', Raise IntegrityError) =>
        (db', Raise (BadRequest (JStr "user already exists")))
    | (db', Raise e) => (db', Raise e)
    end.
Proof.
  intros Hjson Hvalid. run_handler.
  by destruct (add_User _ db) as [db' [id|[]]].
Qed.


(** An INSERT that returns has stored the row under the key it returns,
    a key that was free, and nothing else. *)
Lemma add_User_Ok new_user db db' pk :
  add_User new_user db = (db', Ok pk) →
  users db !! pk = None ∧ users db' = <[pk := new_user]> (users db) ∧
  advertisements db' = advertisements db.
Proof.
  unfold add_User.
  destruct (60 <? String.length (User.username new_user))%nat; [done|].
  destruct (is_stored (users db) (users_id_seq db + 1)) eqn:Hfree; [done|].
  destruct (username_taken (User.username new_user) (users db)); [done|].
  simpl. intros [= <- <-]. by apply is_stored_false in Hfree.
Qed.


(** In a consistent database the INSERT of a user whose name fits the
    column and is not taken returns. *)
Lemma add_User_accepts new_user db :
  consistent db →
  (String.length (User.username new_user) ≤ 60)%nat →
  username_taken (User.username new_user) (users db) = false →
  ∃ db' pk, add_User new_user db = (db', Ok pk).
Proof.
  intros Hdb Hlen Hfree. unfold add_User.
  apply Nat.ltb_ge in Hlen. rewrite Hlen, Hfree.
  destruct (is_stored (users db) (users_id_seq db + 1)) eqn:Hpk; simpl; [|eauto].
  apply is_stored_true in Hpk as [row Hrow].
  apply (users_below_seq db Hdb) in Hrow. lia.
Qed.



(** C3: in a consistent database that holds a user with the submitted
    username, the create of a user is answered 400 with the description
    ["user already exists"], and both tables are as they were: no second
    row is stored. *)
Theorem duplicate_username_is_rejected
    (db : Database) (request : Request) (data : list (string * json))
    (m : CreateUserModel.t) (k : Z) (row : User.t) :
  consistent db → request_json request = Some (JObj data) →
  CreateUserModel.validate data = Some m →
  users db !! k = Some row → User.username row = CreateUserModel.username m →
  http_reply (UserView_post request db).2
    = Some (400, error_body "user already exists") ∧
  users (UserView_post request db).1 = users db ∧
  advertisements (UserView_post request db).1 = advertisements db.
Proof.
  intros Hdb Hjson Hvalid Hrow Hname.
  rewrite (UserView_post_run _ _ _ _ Hjson Hvalid). unfold add_User. simpl.
  pose proof (username_fits db Hdb _ _ Hrow) as Hlen.
  rewrite Hname in Hlen. apply Nat.ltb_ge in Hlen. rewrite Hlen.
  assert (Htaken : username_taken (CreateUserModel.username m) (users db) = true)
    by (apply username_taken_true; eauto).
  rewrite Htaken, orb_true_r. done.
Qed.

(** ** Create, then read *)


(** ** Patch *)





(** ** Delete *)

Lemma commit_users_absent db db' id :
  commit db db' → users db !! id = None → id ≤ users_id_seq db →
  users db' !! id = None ∧ id ≤ users_id_seq db'.
Proof.
  destruct 1 as [|new_user|now new_adv|pk loaded items Hpk|pk loaded items Hpk
                 |pk loaded Hpk|pk loaded Hpk]; intros Hnone Hseq; try done.
  - unfold add_User. repeat case_match; simpl; split; try done; try lia;
      by rewrite lookup_insert_ne by lia.
  - unfold add_Advertisement. by repeat case_match.
  - assert (pk ≠ id) by congruence.
    unfold update_User. repeat case_match; simpl; split; try done;
      by rewrite lookup_insert_ne.
  - simpl. split; [|done]. by apply lookup_delete_None; right.
Qed.

Lemma commit_advertisements_absent db db' id :
  commit db db' →
  advertisements db !! id = None → id ≤ advertisements_id_seq db →
  advertisements db' !! id = None ∧ id ≤ advertisements_id_seq db'.
Proof.
  destruct 1 as [|new_user|now new_adv|pk loaded items Hpk|pk loaded items Hpk
                 |pk loaded Hpk|pk loaded Hpk]; intros Hnone Hseq; try done.
  - unfold add_User. by repeat case_match.
  - unfold add_Advertisement. repeat case_match; simpl; split; try done; try lia;
      by rewrite lookup_insert_ne by lia.
  - unfold update_User. by repeat case_match.
  - assert (pk ≠ id) by congruence.
    simpl. split; [|done]. by rewrite lookup_insert_ne.
  - simpl. split; [|done]. by rewrite lookup_fmap, Hnone.
  - simpl. split; [|done]. by apply lookup_delete_None; right.
Qed.

(** A key that is free and not ahead of its sequence stays free, whatever
    requests are served. *)
Lemma serve_all_users_absent reqs db id :
  users db !! id = None → id ≤ users_id_seq db →
  users (serve_all reqs db) !! id = None.
Proof.
  revert db. induction reqs as [|[now req] reqs IH]; intros db Hnone Hseq; [done|].
  simpl. destruct (commit_users_absent _ _ id (serve_commit now req db)); auto.
Qed.

Lemma serve_all_advertisements_absent reqs db id :
  advertisements db !! id = None → id ≤ advertisements_id_seq db →
  advertisements (serve_all reqs db) !! id = None.
Proof.
  revert db. induction reqs as [|[now req] reqs IH]; intros db Hnone Hseq; [done|].
  simpl.
  destruct (commit_advertisements_absent _ _ id (serve_commit now req db)); auto.
Qed.

Lemma UserView_delete_run request id user db :
  addressed request "user_id" id → users db !! id = Some user →
  UserView_delete request db
  = ((delete_User id db).1, Ok (Response 200 (JObj [("status", JStr "succes")]))).
Proof. intros Hid Huser. by run_handler. Qed.

Lemma AdvView_delete_run request id adv db :
  addressed request "adv_id" id → advertisements db !! id = Some adv →
  AdvView_delete request db
  = ((delete_Advertisement id db).1,
     Ok (Response 200 (JObj [("status", JStr "succes")]))).
Proof. intros Hid Hadv. by run_handler. Qed.

Lemma UserView_get_absent read id db :
  addressed read "user_id" id → users db !! id = None →
  UserView_get read db = (db, Raise (NotFound (JStr "user not found"))).
Proof. intros Hid Hnone. by run_handler. Qed.

Lemma AdvView_get_absent read id db :
  addressed read "adv_id" id → advertisements db !! id = None →
  AdvView_get read db = (db, Raise (NotFound (JStr "advertisement not found"))).
Proof. intros Hid Hnone. by run_handler. Qed.

(** C7: in a consistent database, the delete of a stored user (of a
    stored advertisement) returns status 200 with [{"status": "succes"}],
    and after it, whatever requests the application serves in between,
    every read of that identity is answered 404. *)
Theorem delete_then_read_is_404
    (db : Database) (request read : Request) (id : Z)
    (reqs : list (datetime * HttpRequest)) :
  consistent db →
  (addressed request "user_id" id → is_Some (users db !! id) →
   addressed read "user_id" id →
     (UserView_delete request db).2
       = Ok (Response 200 (JObj [("status", JStr "succes")])) ∧
     let later := serve_all reqs (UserView_delete request db).1 in
     UserView_get read later = (later, Raise (NotFound (JStr "user not found"))) ∧
     http_reply (UserView_get read later).2
       = Some (404, error_body "user not found")) ∧
  (addressed request "adv_id" id → is_Some (advertisements db !! id) →
   addressed read "adv_id" id →
     (AdvView_delete request db).2
       = Ok (Response 200 (JObj [("status", JStr "succes")])) ∧
     let later := serve_all reqs (AdvView_delete request db).1 in
     AdvView_get read later
       = (later, Raise (NotFound (JStr "advertisement not found"))) ∧
     http_reply (AdvView_get read later).2
       = Some (404, error_body "advertisement not found")).
Proof.
  intros Hdb. split; intros Hid [row Hrow] Hread.
  - rewrite (UserView_delete_run _ _ _ _ Hid Hrow). split; [done|].
    intros later.
    assert (Hgone : users later !! id = None).
    { apply serve_all_users_absent; simpl.
      - apply lookup_delete_eq.
      - by eapply users_below_seq. }
    by rewrite (UserView_get_absent _ _ _ Hread Hgone).
  - rewrite (AdvView_delete_run _ _ _ _ Hid Hrow). split; [done|].
    intros later.
    assert (Hgone : advertisements later !! id = None).
    { apply serve_all_advertisements_absent; simpl.
      - apply lookup_delete_eq.
      - by eapply advertisements_below_seq. }
    by rewrite (AdvView_get_absent _ _ _ Hread Hgone).
Qed.

(** * The handlers on sample requests *)

Example int_examples :
  int "42" = Some 42 ∧ int " -1_000 " = Some (-1000) ∧ int "" = None ∧
  int "4_" = None ∧ int "1__2" = None ∧ int "12a" = None ∧ int "+" = None.
Proof. repeat split; reflexivity. Qed.

Example validate_examples :
  CreateUserModel.validate alice_data
    = Some {| CreateUserModel.username := "alice"; CreateUserModel.password := "pw1" |} ∧
  CreateUserModel.validate [("username", JStr "alice")] = None ∧
  CreateUserModel.validate [("username", JInt 5); ("password", JStr "x")]
    = Some {| CreateUserModel.username := "5"; CreateUserModel.password := "x" |} ∧
  PatchAdvModel.validate [("title", JNull); ("extra", JInt 1)]
    = Some {| PatchAdvModel.title := None; PatchAdvModel.description := None |} ∧
  PatchAdvModel.validate [("title", JArr [])] = None.
Proof. repeat split; vm_compute; reflexivity. Qed.

Example long_username_length : String.length long_username = 61%nat.
Proof. reflexivity. Qed.

Lemma alice_database_consistent : consistent alice_database.
Proof. apply serve_all_consistent, consistent_empty. Qed.

Lemma bike_database_consistent : consistent bike_database.
Proof. apply serve_all_consistent, alice_database_consistent. Qed.

Example alice_database_rows :
  users alice_database !! 1 = Some alice ∧ users alice_database !! 2 = None ∧
  advertisements alice_database !! 1 = None.
Proof. repeat split; vm_compute; reflexivity. Qed.

Example bike_database_rows :
  users bike_database !! 1 = Some alice ∧
  advertisements bike_database !! 1
    = Some {| Advertisement.title := "bike"; Advertisement.description := "red";
              Advertisement.creation_time := Some sample_time;
              Advertisement.user_id := Some 1 |}.
Proof. repeat split; vm_compute; reflexivity. Qed.

(** The scenario of the specification: create alice, read her, delete
    her, read again. *)
Example scenario_alice :
  let created := UserView_post (post_request alice_data) empty_database in
  let read := UserView_get (id_request "user_id" "1" None) created.1 in
  let deleted := UserView_delete (id_request "user_id" "1" None) created.1 in
  let read_again := UserView_get (id_request "user_id" "1" None) deleted.1 in
  created.2 = Ok (Dict [("id", JInt 1)]) ∧
  http_reply read.2
    = Some (200, JObj [("id_user", JInt 1); ("username", JStr "alice")]) ∧
  http_reply deleted.2 = Some (200, JObj [("status", JStr "succes")]) ∧
  http_reply read_again.2 = Some (404, error_body "user not found").
Proof. repeat split; vm_compute; reflexivity. Qed.

(** Through the router: an item route, a segment that is no number, a
    method without a route. *)
Example scenario_served :
  http_reply
    (serve sample_time {| http_method := GET; http_path := "/users/1";
                          http_json := None |} alice_database).2
    = Some (200, JObj [("id_user", JInt 1); ("username", JStr "alice")]) ∧
  (serve sample_time {| http_method := GET; http_path := "/users/1a";
                        http_json := None |} alice_database).2
    = Raise HTTPNotFound ∧
  (serve sample_time {| http_method := PUT; http_path := "/users/1";
                        http_json := None |} alice_database).2
    = Raise HTTPMethodNotAllowed ∧
  http_reply
    (serve sample_time {| http_method := DELETE; http_path := "/advs/1";
                          http_json := None |} bike_database).2
    = Some (200, JObj [("status", JStr "succes")]).
Proof. repeat split; vm_compute; reflexivity. Qed.

(** ** C1 *)



(** ** C2 *)



(** ** C3 *)

Lemma duplicate_username_is_rejected_witness :
  http_reply (UserView_post (post_request alice_data) alice_database).2
    = Some (400, error_body "user already exists") ∧
  users (UserView_post (post_request alice_data) alice_database).1
    = users alice_database ∧
  advertisements (UserView_post (post_request alice_data) alice_database).1
    = advertisements alice_database.
Proof.
  apply (duplicate_username_is_rejected alice_database
           (post_request alice_data) alice_data
           {| CreateUserModel.username := "alice";
              CreateUserModel.password := "pw1" |} 1 alice).
  - apply alice_database_consistent.
  - reflexivity.
  - reflexivity.
  - vm_compute. reflexivity.
  - reflexivity.
Defined.

(** ** C4 *)


(** ** C5 *)



(** ** C6 *)


(** ** C7 *)

Lemma delete_then_read_is_404_witness :
  http_reply
    (UserView_get (id_request "user_id" "1" None)
       (serve_all
          [(sample_time, {| http_method := POST; http_path := "/users/";
                            http_json := Some (JObj alice_data) |})]
          (UserView_delete (id_request "user_id" "1" None) alice_database).1)).2
    = Some (404, error_body "user not found") ∧
  (AdvView_delete (id_request "adv_id" "1" None) bike_database).2
    = Ok (Response 200 (JObj [("status", JStr "succes")])).
Proof.
  split.
  - destruct (delete_then_read_is_404 alice_database
                (id_request "user_id" "1" None) (id_request "user_id" "1" None) 1
                [(sample_time, {| http_method := POST; http_path := "/users/";
                                  http_json := Some (JObj alice_data) |})]
                alice_database_consistent) as [Huser _].
    destruct Huser as (_ & _ & Hread).
    + exists "1". split; reflexivity.
    + exists alice. vm_compute. reflexivity.
    + exists "1". split; reflexivity.
    + exact Hread.
  - destruct (delete_then_read_is_404 bike_database
                (id_request "adv_id" "1" None) (id_request "adv_id" "1" None) 1 []
                bike_database_consistent) as [_ Hadv].
    destruct Hadv as (Hdeleted & _).
    + exists "1". split; reflexivity.
    + eexists. vm_compute. reflexivity.
    + exists "1". split; reflexivity.
    + exact Hdeleted.
Defined.

(** ** C8 *)

Example other_password_rows :
  users alice_database_other_password !! 1
    = Some {| User.username := "alice"; User.password := "other" |}.
Proof. vm_compute. reflexivity. Qed.

Lemma reads_do_not_depend_on_passwords_witness :
  (UserView_get (id_request "user_id" "1" None) alice_database).2
    = (UserView_get (id_request "user_id" "1" None)
         alice_database_other_password).2 ∧
  (UserView_get (id_request "user_id" "1" None) alice_database).2
    = Ok (Response 200 (JObj [("id_user", JInt 1); ("username", JStr "alice")])).
Proof.
  destruct (reads_do_not_depend_on_passwords alice_database
              alice_database_other_password (id_request "user_id" "1" None))
    as (Hsame & _ & Hbody).
  split.
  - apply Hsame. vm_compute. reflexivity.
  - apply (Hbody 1 alice).
    + exists "1". split; reflexivity.
    + vm_compute. reflexivity.
Defined.

(** ** C9 *)

Lemma patch_without_fields_is_identity_witness :
  UserView_patch (id_request "user_id" "1" (Some (JObj []))) alice_database
    = (alice_database, Ok (Response 200 (JObj [("status", JStr "success")]))) ∧
  AdvView_patch
    (id_request "adv_id" "1" (Some (JObj [("title", JNull); ("price", JInt 3)])))
    bike_database
    = (bike_database, Ok (Response 200 (JObj [("status", JStr "success")]))).
Proof.
  split.
  - apply (patch_without_fields_is_identity alice_database
             (id_request "user_id" "1" (Some (JObj []))) 1 [] eq_refl).
    + exists "1". split; reflexivity.
    + exists alice. vm_compute. reflexivity.
    + left. reflexivity.
    + left. reflexivity.
  - apply (patch_without_fields_is_identity bike_database
             (id_request "adv_id" "1"
                (Some (JObj [("title", JNull); ("price", JInt 3)]))) 1
             [("title", JNull); ("price", JInt 3)] eq_refl).
    + exists "1". split; reflexivity.
    + eexists. vm_compute. reflexivity.
    + right. reflexivity.
    + left. reflexivity.
Defined.

(** ** C10 *)


(** * Further properties of the handlers *)

(** ** Reads, failures and the tables *)

Lemma reads_only_ret {A : Type} (a : A) : reads_only (ret a).
Proof. done. Qed.

Lemma reads_only_bind {A B : Type} (m : handler A) (f : A → handler B) :
  reads_only m → (∀ a, reads_only (f a)) → reads_only (bind m f).
Proof.
  intros Hm Hf db. unfold bind. specialize (Hm db).
  destruct (m db) as [db1 [a|e]]; simpl in *; subst; [apply Hf|done].
Qed.

Lemma reads_only_match_info_int request name :
  reads_only (match_info_int request name).
Proof. intros db. apply match_info_int_fst. Qed.

Lemma reads_only_expect {A : Type} e (value : option A) : reads_only (expect e value).
Proof. intros db. apply expect_fst. Qed.

Lemma reads_only_kwargs json_data : reads_only (kwargs json_data).
Proof. intros db. apply kwargs_fst. Qed.

Lemma reads_only_get_user user_id : reads_only (get_user user_id).
Proof. intros db. apply get_user_Ok. Qed.

Lemma reads_only_get_adv adv_id : reads_only (get_adv adv_id).
Proof. intros db. apply get_adv_Ok. Qed.

Lemma atomic_reads_only {A : Type} (h : handler A) : reads_only h → atomic h.
Proof. intros Hh db db' e Heq. specialize (Hh db). rewrite Heq in Hh. by subst. Qed.

Lemma atomic_bind_reads {A B : Type} (m : handler A) (f : A → handler B) :
  reads_only m → (∀ a, atomic (f a)) → atomic (bind m f).
Proof.
  intros Hm Hf db db' e. unfold bind. specialize (Hm db).
  destruct (m db) as [db1 [a|e1]]; simpl in *; subst.
  - apply Hf.
  - by intros [= <- _].
Qed.

Lemma atomic_bind_ret {A B : Type} (m : handler A) (g : A → B) :
  atomic m → atomic (bind m (λ a, ret (g a))).
Proof.
  intros Hm db db' e. unfold bind, ret.
  destruct (m db) as [db1 [a|e1]] eqn:E; [done|].
  intros [= <- <-]. by eapply Hm.
Qed.

Lemma atomic_except {A : Type} (body : handler A) e :
  atomic body → atomic (except_IntegrityError body (raise e)).
Proof.
  intros Hbody db db' e'. unfold except_IntegrityError, raise.
  destruct (body db) as [db1 [a|e1]] eqn:E; [done|].
  destruct e1; intros [= <- _]; by eapply Hbody.
Qed.

Lemma atomic_add_User new_user : atomic (add_User new_user).
Proof. intros db db' e. unfold add_User. by repeat case_match; intros [= <- _]. Qed.

Lemma atomic_add_Advertisement now new_adv : atomic (add_Advertisement now new_adv).
Proof.
  intros db db' e. unfold add_Advertisement.
  by repeat case_match; intros [= <- _].
Qed.

Lemma atomic_update_User pk loaded user : atomic (update_User pk loaded user).
Proof.
  intros db db' e. unfold update_User. by repeat case_match; intros [= <- _].
Qed.

Lemma atomic_never_raises {A : Type} (h : handler A) :
  (∀ db, ∃ a, (h db).2 = Ok a) → atomic h.
Proof. intros Hh db db' e Heq. destruct (Hh db) as [a Ha]. by rewrite Heq in Ha. Qed.

Ltac reads_step :=
  first
    [ apply reads_only_match_info_int | apply reads_only_expect
    | apply reads_only_kwargs | apply reads_only_get_user
    | apply reads_only_get_adv | apply reads_only_ret
    | apply reads_only_bind; [|intros ?] ].

Ltac atomic_step :=
  first
    [ apply atomic_bind_reads; [by repeat reads_step|intros ?]
    | apply atomic_bind_ret
    | apply atomic_except
    | apply atomic_add_User | apply atomic_add_Advertisement
    | apply atomic_update_User
    | apply atomic_never_raises; intros ?; by eexists
    | apply atomic_reads_only; by repeat reads_step ].

Lemma View_atomic v m now request : atomic (View v m now request).
Proof.
  destruct v, m; simpl;
    unfold UserView_get, UserView_post, UserView_delete, UserView_patch,
           AdvView_get, AdvView_post, AdvView_delete, AdvView_patch;
    repeat atomic_step.
Qed.

Lemma serve_atomic now req : atomic (serve now req).
Proof.
  unfold serve.
  destruct (resolve routes (http_method req) (http_path req)) as [[v info]|].
  - apply View_atomic.
  - case_match; by intros db db' e [= <- _].
Qed.

Lemma serve_GET_reads_only now req :
  http_method req = GET → reads_only (serve now req).
Proof.
  intros Hget. unfold serve. rewrite Hget.
  destruct (resolve routes GET (http_path req)) as [[v info]|].
  - destruct v; simpl; unfold UserView_get, AdvView_get; by repeat reads_step.
  - by case_match.
Qed.

(** X1: a request that ends in an exception, answered 400 or 404 or left
    to the listener, has stored nothing: both tables are as before.  A
    GET leaves the whole database as it was. *)
Theorem failed_requests_and_reads_store_nothing
    (now : datetime) (req : HttpRequest) (db : Database) :
  (∀ e, (serve now req db).2 = Raise e →
        users (serve now req db).1 = users db ∧
        advertisements (serve now req db).1 = advertisements db) ∧
  (http_method req = GET → (serve now req db).1 = db).
Proof.
  split.
  - intros e He. apply (serve_atomic now req db _ e).
    rewrite <- He. by destruct (serve now req db).
  - intros Hget. by apply serve_GET_reads_only.
Qed.

(** X2: the empty database is consistent, and whatever requests the
    application serves from a consistent database, the result is
    consistent: usernames stay unique and within 60 characters, every
    advertisement has its creation time and an owner that is stored or
    NULL, and no key is ahead of its sequence. *)
Theorem served_requests_keep_the_schema :
  consistent empty_database ∧
  ∀ reqs db, consistent db → consistent (serve_all reqs db).
Proof.
  split.
  - apply consistent_empty.
  - intros reqs. induction reqs as [|[now req] reqs IH]; intros db Hdb; [done|].
    apply IH. eapply commit_consistent; [apply serve_commit|done].
Qed.

(** ** The replies of the application *)







(** ** Identities *)

Lemma commit_seq_mono db db' :
  commit db db' →
  users_id_seq db ≤ users_id_seq db' ∧
  advertisements_id_seq db ≤ advertisements_id_seq db'.
Proof.
  destruct 1; try done.
  - unfold add_User. repeat case_match; simpl; lia.
  - unfold add_Advertisement. repeat case_match; simpl; lia.
  - unfold update_User. by repeat case_match.
Qed.

Lemma serve_all_seq_mono reqs db :
  users_id_seq db ≤ users_id_seq (serve_all reqs db) ∧
  advertisements_id_seq db ≤ advertisements_id_seq (serve_all reqs db).
Proof.
  revert db. induction reqs as [|[now req] reqs IH]; intros db; [done|].
  simpl. destruct (commit_seq_mono _ _ (serve_commit now req db)).
  destruct (IH (serve now req db).1). lia.
Qed.

Lemma add_User_key new_user db db' pk :
  add_User new_user db = (db', Ok pk) →
  pk = users_id_seq db + 1 ∧ users_id_seq db' = pk.
Proof. unfold add_User. by repeat case_match; intros [= <- <-]. Qed.

Lemma add_Advertisement_key now new_adv db db' pk :
  add_Advertisement now new_adv db = (db', Ok pk) →
  pk = advertisements_id_seq db + 1 ∧ advertisements_id_seq db' = pk.
Proof. unfold add_Advertisement. by repeat case_match; intros [= <- <-]. Qed.

Lemma UserView_post_returns request db id :
  returned_data (UserView_post request db).2 = Some (JObj [("id", JInt id)]) →
  ∃ new_user, add_User new_user db = ((UserView_post request db).1, Ok id).
Proof.
  unfold UserView_post, bind, expect, kwargs, ret, raise, except_IntegrityError.
  destruct (request_json request) as [[| | | | |data]|]; try done.
  destruct (CreateUserModel.validate data) as [m|]; [|done].
  destruct (add_User _ db) as [db' [pk|[]]] eqn:E; try done.
  simpl. intros [= <-]. eauto.
Qed.

Lemma AdvView_post_returns now request db id :
  returned_data (AdvView_post now request db).2 = Some (JObj [("id", JInt id)]) →
  ∃ new_adv,
    add_Advertisement now new_adv db = ((AdvView_post now request db).1, Ok id).
Proof.
  unfold AdvView_post, bind, expect, kwargs, ret, raise, except_IntegrityError.
  destruct (request_json request) as [[| | | | |data]|]; try done.
  destruct (CreateAdvModel.validate data) as [m|]; [|done].
  destruct (add_Advertisement _ _ db) as [db' [pk|[]]] eqn:E; try done.
  simpl. intros [= <-]. eauto.
Qed.

(** X4: identities are never handed out twice: an identity a create
    returns is smaller than every identity a later create of the same
    entity returns, whatever requests (deletes included) are served in
    between. *)
Theorem created_ids_increase
    (db : Database) (now1 now2 : datetime) (first second : Request)
    (reqs : list (datetime * HttpRequest)) (id1 id2 : Z) :
  (returned_data (UserView_post first db).2 = Some (JObj [("id", JInt id1)]) →
   returned_data
     (UserView_post second (serve_all reqs (UserView_post first db).1)).2
     = Some (JObj [("id", JInt id2)]) →
   id1 < id2) ∧
  (returned_data (AdvView_post now1 first db).2 = Some (JObj [("id", JInt id1)]) →
   returned_data
     (AdvView_post now2 second (serve_all reqs (AdvView_post now1 first db).1)).2
     = Some (JObj [("id", JInt id2)]) →
   id1 < id2).
Proof.
  split.
  - intros (u1 & [_ H1]%add_User_key)%UserView_post_returns
           (u2 & [H2 _]%add_User_key)%UserView_post_returns.
    destruct (serve_all_seq_mono reqs (UserView_post first db).1) as [Hmono _].
    lia.
  - intros (a1 & [_ H1]%add_Advertisement_key)%AdvView_post_returns
           (a2 & [H2 _]%add_Advertisement_key)%AdvView_post_returns.
    destruct (serve_all_seq_mono reqs (AdvView_post now1 first db).1)
      as [_ Hmono].
    lia.
Qed.

(** ** Refused creates *)



(** ** Patch of a user *)





(** ** Delete of a user *)

(** X9: the delete of a stored user removes that row only and keeps every
    advertisement; those the user owned lose their owner, and their read
    then shows [user_id] as [null]; the others are untouched. *)
Theorem delete_user_disowns_advertisements
    (db : Database) (request : Request) (id : Z) (user : User.t) :
  addressed request "user_id" id → users db !! id = Some user →
  users (UserView_delete request db).1 = delete id (users db) ∧
  (∀ k, advertisements (UserView_delete request db).1 !! k
        = disown id <$> advertisements db !! k) ∧
  (∀ k adv, advertisements db !! k = Some adv →
            Advertisement.user_id adv ≠ Some id →
            advertisements (UserView_delete request db).1 !! k = Some adv) ∧
  (∀ read k adv t,
     addressed read "adv_id" k → advertisements db !! k = Some adv →
     Advertisement.user_id adv = Some id →
     Advertisement.creation_time adv = Some t →
     (AdvView_get read (UserView_delete request db).1).2
       = Ok (Response 200
               (JObj [("title", JStr (Advertisement.title adv));
                      ("description", JStr (Advertisement.description adv));
                      ("date", JStr (isoformat t)); ("user_id", JNull)]))).
Proof.
  intros Hid Huser. rewrite (UserView_delete_run _ _ _ _ Hid Huser). simpl.
  split; [done|]. split; [|split].
  - intros k. apply lookup_fmap.
  - intros k adv Hadv Hother. rewrite lookup_fmap, Hadv. simpl.
    unfold disown. by rewrite bool_decide_eq_false_2.
  - intros read k adv t Hread Hadv Hown Htime.
    assert (Hrow : (disown id <$> advertisements db) !! k = Some (disown id adv))
      by (by rewrite lookup_fmap, Hadv).
    run_handler. unfold disown. rewrite bool_decide_eq_true_2 by done. simpl.
    by rewrite Htime.
Qed.

(** X10: in a consistent database, after the delete of a user the
    username is free again: a create with that username returns a new,
    larger identity and stores the user under it. *)
Theorem username_is_free_after_delete
    (db : Database) (request post : Request) (id : Z) (user : User.t)
    (data : list (string * json)) (p : string) :
  consistent db →
  addressed request "user_id" id → users db !! id = Some user →
  request_json post = Some (JObj data) →
  dict_get "username" data = Some (JStr (User.username user)) →
  dict_get "password" data = Some (JStr p) →
  ∃ id',
    id < id' ∧
    (UserView_post post (UserView_delete request db).1).2
      = Ok (Dict [("id", JInt id')]) ∧
    users (UserView_post post (UserView_delete request db).1).1 !! id'
      = Some {| User.username := User.username user; User.password := p |}.
Proof.
  intros Hdb Hid Huser Hjson Hu Hp.
  assert (Hvalid : CreateUserModel.validate data
                   = Some {| CreateUserModel.username := User.username user;
                             CreateUserModel.password := p |}).
  { unfold CreateUserModel.validate.
    by rewrite (required_str _ _ _ Hu), (required_str _ _ _ Hp). }
  rewrite (UserView_delete_run _ _ _ _ Hid Huser).
  rewrite (UserView_post_run _ _ _ _ Hjson Hvalid). simpl.
  match goal with
  | |- context [add_User ?new_user ?deleted] =>
      destruct (add_User_accepts new_user deleted) as (db' & pk & Hadd)
  end.
  - by apply (delete_User_consistent id).
  - apply (username_fits db Hdb _ _ Huser).
  - apply username_taken_false. simpl.
    intros k row [Hne Hrow]%lookup_delete_Some Heq. apply Hne.
    by eapply (username_unique db Hdb).
  - rewrite Hadd. exists pk.
    destruct (add_User_key _ _ _ _ Hadd) as [Hpk _]. simpl in Hpk.
    apply add_User_Ok in Hadd as (_ & Husers & _).
    pose proof (users_below_seq db Hdb _ _ Huser).
    split; [lia|]. split; [done|]. simpl. by rewrite Husers, lookup_insert_eq.
Qed.

(** ** Read of a stored advertisement *)

(** X11: in a consistent database the read of a stored advertisement
    returns 200 with its title, description, creation date and owner; it
    never fails on a missing creation time. *)
Theorem stored_advertisement_is_read
    (db : Database) (read : Request) (id : Z) (adv : Advertisement.t) :
  consistent db → addressed read "adv_id" id →
  advertisements db !! id = Some adv →
  ∃ t,
    Advertisement.creation_time adv = Some t ∧
    AdvView_get read db
    = (db, Ok (Response 200
                 (JObj [("title", JStr (Advertisement.title adv));
                        ("description", JStr (Advertisement.description adv));
                        ("date", JStr (isoformat t));
                        ("user_id",
                         json_of_option_int (Advertisement.user_id adv))]))).
Proof.
  intros Hdb Hread Hadv.
  destruct (creation_time_set db Hdb _ _ Hadv) as [t Ht].
  exists t. split; [done|]. by run_handler.
Qed.

(** ** The route table *)



Lemma match_digits_nonempty segment :
  match_digits segment = true → String.eqb segment "" = false.
Proof. by destruct segment. Qed.





(** ** Identities in paths *)










(** * The further properties on sample requests *)

Example two_users_database_rows :
  users two_users_database !! 1 = Some alice ∧
  users two_users_database !! 2
    = Some {| User.username := "bob"; User.password := "pw2" |}.
Proof. split; vm_compute; reflexivity. Qed.

Lemma failed_requests_and_reads_store_nothing_witness :
  users (serve sample_time (post_users alice_data) alice_database).1
    = users alice_database ∧
  (serve sample_time (get_users "1") alice_database).1 = alice_database.
Proof.
  split.
  - destruct (failed_requests_and_reads_store_nothing sample_time
                (post_users alice_data) alice_database) as [Hfailed _].
    destruct (Hfailed (BadRequest (JStr "user already exists"))) as [Husers _].
    + vm_compute. reflexivity.
    + exact Husers.
  - apply (failed_requests_and_reads_store_nothing sample_time (get_users "1")
             alice_database).
    reflexivity.
Defined.

Lemma served_requests_keep_the_schema_witness :
  consistent
    (serve_all [(sample_time, delete_users "1"); (sample_time, post_users bob_data)]
       alice_database).
Proof.
  apply (proj2 served_requests_keep_the_schema). apply alice_database_consistent.
Defined.


Lemma created_ids_increase_witness :
  returned_data (UserView_post (post_request alice_data) empty_database).2
    = Some (JObj [("id", JInt 1)]) ∧
  returned_data
    (UserView_post (post_request alice_data)
       (serve_all [(sample_time, delete_users "1")]
          (UserView_post (post_request alice_data) empty_database).1)).2
    = Some (JObj [("id", JInt 2)]) ∧
  1 < 2.
Proof.
  split; [vm_compute; reflexivity|]. split; [vm_compute; reflexivity|].
  destruct (created_ids_increase empty_database sample_time sample_time
              (post_request alice_data) (post_request alice_data)
              [(sample_time, delete_users "1")] 1 2) as [Husers _].
  apply Husers.
  - vm_compute. reflexivity.
  - vm_compute. reflexivity.
Defined.





Lemma delete_user_disowns_advertisements_witness :
  (AdvView_get (id_request "adv_id" "1" None)
     (UserView_delete (id_request "user_id" "1" None) bike_database).1).2
    = Ok (Response 200
            (JObj [("title", JStr "bike"); ("description", JStr "red");
                   ("date", JStr "2024-05-01T12:00:00"); ("user_id", JNull)])).
Proof.
  destruct (delete_user_disowns_advertisements bike_database
              (id_request "user_id" "1" None) 1 alice) as (_ & _ & _ & Hread).
  - exists "1". split; reflexivity.
  - vm_compute. reflexivity.
  - apply (Hread (id_request "adv_id" "1" None) 1
             {| Advertisement.title := "bike"; Advertisement.description := "red";
                Advertisement.creation_time := Some sample_time;
                Advertisement.user_id := Some 1 |} sample_time).
    + exists "1". split; reflexivity.
    + vm_compute. reflexivity.
    + reflexivity.
    + reflexivity.
Defined.

Lemma username_is_free_after_delete_witness :
  ∃ id',
    1 < id' ∧
    (UserView_post (post_request alice_data)
       (UserView_delete (id_request "user_id" "1" None) alice_database).1).2
      = Ok (Dict [("id", JInt id')]) ∧
    users (UserView_post (post_request alice_data)
             (UserView_delete (id_request "user_id" "1" None) alice_database).1).1
      !! id'
      = Some {| User.username := "alice"; User.password := "pw1" |}.
Proof.
  apply (username_is_free_after_delete alice_database
           (id_request "user_id" "1" None) (post_request alice_data) 1 alice
           alice_data "pw1").
  - apply alice_database_consistent.
  - exists "1". split; reflexivity.
  - vm_compute. reflexivity.
  - reflexivity.
  - reflexivity.
  - reflexivity.
Defined.

Lemma stored_advertisement_is_read_witness :
  ∃ t,
    Some sample_time = Some t ∧
    AdvView_get (id_request "adv_id" "1" None) bike_database
    = (bike_database,
       Ok (Response 200
             (JObj [("title", JStr "bike"); ("description", JStr "red");
                    ("date", JStr (isoformat t)); ("user_id", JInt 1)]))).
Proof.
  apply (stored_advertisement_is_read bike_database
           (id_request "adv_id" "1" None) 1
           {| Advertisement.title := "bike"; Advertisement.description := "red";
              Advertisement.creation_time := Some sample_time;
              Advertisement.user_id := Some 1 |}).
  - apply bike_database_consistent.
  - exists "1". split; reflexivity.
  - vm_compute. reflexivity.
Defined.



